(** * GUIEngine widget layer (src/gui/widget.hpp)

    A shallow embedding of the widget hierarchy declared in
    [src/gui/widget.hpp]: the [WidgetType] and [Property] enumerations, the
    [Widget] base class and its subclasses, the [std::map] that holds the
    XML properties, the virtual event handlers and the inline accessors.

    Widgets live in a store indexed by addresses: [m_parent], [m_children],
    [m_rows], [m_left_widget] and [m_right_widget] are pointers in the
    source, and [RibbonWidget::getSelectionName] writes through one of
    them. *)

From stdpp Require Import base option countable gmap list strings.

Local Open Scope Z_scope.

(** ** Enumerations *)

(** [enum WidgetType], widget.hpp:13-27. *)
Inductive WidgetType : Set :=
  | WTYPE_NONE
  | WTYPE_RIBBON
  | WTYPE_SPINNER
  | WTYPE_BUTTON
  | WTYPE_GAUGE
  | WTYPE_ICON_BUTTON
  | WTYPE_CHECKBOX
  | WTYPE_LABEL
  | WTYPE_MODEL
  | WTYPE_SPACER
  | WTYPE_DIV
  | WTYPE_RIBBON_GRID.

(** The enumerator values: [WTYPE_NONE = -1], the others count up from it. *)
Definition WidgetType_value (t : WidgetType) : Z :=
  match t with
  | WTYPE_NONE => -1
  | WTYPE_RIBBON => 0
  | WTYPE_SPINNER => 1
  | WTYPE_BUTTON => 2
  | WTYPE_GAUGE => 3
  | WTYPE_ICON_BUTTON => 4
  | WTYPE_CHECKBOX => 5
  | WTYPE_LABEL => 6
  | WTYPE_MODEL => 7
  | WTYPE_SPACER => 8
  | WTYPE_DIV => 9
  | WTYPE_RIBBON_GRID => 10
  end.

Definition all_WidgetType : list WidgetType :=
  [WTYPE_NONE; WTYPE_RIBBON; WTYPE_SPINNER; WTYPE_BUTTON; WTYPE_GAUGE;
   WTYPE_ICON_BUTTON; WTYPE_CHECKBOX; WTYPE_LABEL; WTYPE_MODEL; WTYPE_SPACER;
   WTYPE_DIV; WTYPE_RIBBON_GRID].

#[global] Instance WidgetType_eq_dec : EqDecision WidgetType.
Proof. solve_decision. Defined.

(** [enum Property], widget.hpp:29-48. *)
Inductive Property : Set :=
  | PROP_ID
  | PROP_PROPORTION
  | PROP_WIDTH
  | PROP_HEIGHT
  | PROP_CHILD_WIDTH
  | PROP_CHILD_HEIGHT
  | PROP_WORD_WRAP
  | PROP_GROW_WITH_TEXT
  | PROP_X
  | PROP_Y
  | PROP_LAYOUT
  | PROP_ALIGN
  | PROP_TEXT
  | PROP_ICON
  | PROP_TEXT_ALIGN
  | PROP_MIN_VALUE
  | PROP_MAX_VALUE.

(** The enumerator values: [PROP_ID = 100], the others count up from it. *)
Definition Property_value (p : Property) : Z :=
  match p with
  | PROP_ID => 100
  | PROP_PROPORTION => 101
  | PROP_WIDTH => 102
  | PROP_HEIGHT => 103
  | PROP_CHILD_WIDTH => 104
  | PROP_CHILD_HEIGHT => 105
  | PROP_WORD_WRAP => 106
  | PROP_GROW_WITH_TEXT => 107
  | PROP_X => 108
  | PROP_Y => 109
  | PROP_LAYOUT => 110
  | PROP_ALIGN => 111
  | PROP_TEXT => 112
  | PROP_ICON => 113
  | PROP_TEXT_ALIGN => 114
  | PROP_MIN_VALUE => 115
  | PROP_MAX_VALUE => 116
  end.

Definition Property_of_value (z : Z) : option Property :=
  match z with
  | 100 => Some PROP_ID
  | 101 => Some PROP_PROPORTION
  | 102 => Some PROP_WIDTH
  | 103 => Some PROP_HEIGHT
  | 104 => Some PROP_CHILD_WIDTH
  | 105 => Some PROP_CHILD_HEIGHT
  | 106 => Some PROP_WORD_WRAP
  | 107 => Some PROP_GROW_WITH_TEXT
  | 108 => Some PROP_X
  | 109 => Some PROP_Y
  | 110 => Some PROP_LAYOUT
  | 111 => Some PROP_ALIGN
  | 112 => Some PROP_TEXT
  | 113 => Some PROP_ICON
  | 114 => Some PROP_TEXT_ALIGN
  | 115 => Some PROP_MIN_VALUE
  | 116 => Some PROP_MAX_VALUE
  | _ => None
  end.

#[global] Instance Property_eq_dec : EqDecision Property.
Proof. solve_decision. Defined.

(** [std::map<Property, std::string>] orders its keys by enumerator value;
    the key type is countable through that value. *)
#[global] Instance Property_countable : Countable Property :=
  inj_countable Property_value Property_of_value
    (fun p => match p with
              | PROP_ID | PROP_PROPORTION | PROP_WIDTH | PROP_HEIGHT
              | PROP_CHILD_WIDTH | PROP_CHILD_HEIGHT | PROP_WORD_WRAP
              | PROP_GROW_WITH_TEXT | PROP_X | PROP_Y | PROP_LAYOUT
              | PROP_ALIGN | PROP_TEXT | PROP_ICON | PROP_TEXT_ALIGN
              | PROP_MIN_VALUE | PROP_MAX_VALUE => eq_refl
              end).

(** [enum RibbonType], widget.hpp:198-203. *)
Inductive RibbonType : Set :=
  | RIBBON_COMBO
  | RIBBON_TOOLBAR
  | RIBBON_TABS.

#[global] Instance RibbonType_eq_dec : EqDecision RibbonType.
Proof. solve_decision. Defined.

(** ** [std::map<Property, std::string>] *)

Module StdMap.

(** [m[k]] as an rvalue or as a reference that is only read:
    [std::map::operator[]] returns the mapped string, and inserts a
    default-constructed (empty) string first when the key is absent. *)
Definition subscript (m : gmap Property string) (k : Property)
  : string * gmap Property string :=
  match m !! k with
  | Some s => (s, m)
  | None => (EmptyString, <[k := EmptyString]> m)
  end.

(** [m[k] = v]: the reference returned by [operator[]] is assigned. *)
Definition assign (m : gmap Property string) (k : Property) (v : string)
  : gmap Property string :=
  <[k := v]> (subscript m k).2.

End StdMap.

(** ** Objects and the store *)

(** A [Widget*] (or a pointer to a subclass object). *)
Definition addr := positive.

(** An [IGUIElement*] / [IGUIStaticText*]: an opaque handle of the engine. *)
Definition irr_handle := positive.

(** [class Widget], widget.hpp:50-142.  The coordinates [x], [y], [w], [h]
    and the numerical [id] carry the class name as a prefix.  An [int]
    member is a [Z]: the header does no arithmetic on them, and every
    [int] is among the values considered. *)
Record Widget : Type := mkWidget {
  m_selected : bool;
  m_parent : option addr;
  m_children : list addr;
  m_type : WidgetType;
  Widget_x : Z;
  Widget_y : Z;
  Widget_w : Z;
  Widget_h : Z;
  Widget_id : Z;
  m_element : option irr_handle;
  m_properties : gmap Property string
}.

Definition set_m_properties (w : Widget) (m : gmap Property string) : Widget :=
  mkWidget (m_selected w) (m_parent w) (m_children w) (m_type w)
           (Widget_x w) (Widget_y w) (Widget_w w) (Widget_h w) (Widget_id w)
           (m_element w) m.

(** [class SpinnerWidget], widget.hpp:173-187. *)
Record SpinnerWidget : Type := mkSpinnerWidget {
  Spinner_base : Widget;
  m_value : Z;
  m_min : Z;
  m_max : Z;
  m_labels : list string;
  m_graphical : bool
}.

(** [class IconButtonWidget], widget.hpp:189-196. *)
Record IconButtonWidget : Type := mkIconButtonWidget {
  IconButton_base : Widget;
  clickable : bool
}.

(** [class RibbonWidget], widget.hpp:205-230. *)
Record RibbonWidget : Type := mkRibbonWidget {
  Ribbon_base : Widget;
  m_selection : Z;
  m_ribbon_type : RibbonType
}.

(** [struct ItemDescription], widget.hpp:232-237. *)
Record ItemDescription : Type := mkItemDescription {
  m_user_name : string;
  m_code_name : string;
  m_sshot_file : string
}.

(** [class RibbonGridWidget], widget.hpp:239-284. *)
Record RibbonGridWidget : Type := mkRibbonGridWidget {
  RibbonGrid_base : Widget;
  m_rows : list addr;
  m_items : list ItemDescription;
  m_label : option irr_handle;
  m_scroll_offset : Z;
  m_needed_cols : Z;
  m_col_amount : Z;
  m_has_label : bool;
  m_left_widget : option addr;
  m_right_widget : option addr
}.

(** An object of the hierarchy, tagged with its dynamic class.  [Widget]
    itself has a public constructor and no pure virtual member, so it can
    be instantiated as well. *)
Inductive Object : Type :=
  | Obj_Widget (w : Widget)
  | Obj_ButtonWidget (w : Widget)
  | Obj_LabelWidget (w : Widget)
  | Obj_CheckBoxWidget (w : Widget)
  | Obj_GaugeWidget (w : Widget)
  | Obj_SpinnerWidget (s : SpinnerWidget)
  | Obj_IconButtonWidget (i : IconButtonWidget)
  | Obj_RibbonWidget (r : RibbonWidget)
  | Obj_RibbonGridWidget (g : RibbonGridWidget).

(** The classes of widget.hpp. *)
Inductive WidgetClass : Set :=
  | Class_Widget
  | Class_ButtonWidget
  | Class_LabelWidget
  | Class_CheckBoxWidget
  | Class_GaugeWidget
  | Class_SpinnerWidget
  | Class_IconButtonWidget
  | Class_RibbonWidget
  | Class_RibbonGridWidget.

#[global] Instance WidgetClass_eq_dec : EqDecision WidgetClass.
Proof. solve_decision. Defined.

Definition class_of (o : Object) : WidgetClass :=
  match o with
  | Obj_Widget _ => Class_Widget
  | Obj_ButtonWidget _ => Class_ButtonWidget
  | Obj_LabelWidget _ => Class_LabelWidget
  | Obj_CheckBoxWidget _ => Class_CheckBoxWidget
  | Obj_GaugeWidget _ => Class_GaugeWidget
  | Obj_SpinnerWidget _ => Class_SpinnerWidget
  | Obj_IconButtonWidget _ => Class_IconButtonWidget
  | Obj_RibbonWidget _ => Class_RibbonWidget
  | Obj_RibbonGridWidget _ => Class_RibbonGridWidget
  end.

(** Every class of the header derives from [Widget] directly
    ([: public Widget]); [None] for the root. *)
Definition base_class (c : WidgetClass) : option WidgetClass :=
  match c with
  | Class_Widget => None
  | _ => Some Class_Widget
  end.

(** The [Widget] subobject of an object. *)
Definition base (o : Object) : Widget :=
  match o with
  | Obj_Widget w | Obj_ButtonWidget w | Obj_LabelWidget w
  | Obj_CheckBoxWidget w | Obj_GaugeWidget w => w
  | Obj_SpinnerWidget s => Spinner_base s
  | Obj_IconButtonWidget i => IconButton_base i
  | Obj_RibbonWidget r => Ribbon_base r
  | Obj_RibbonGridWidget g => RibbonGrid_base g
  end.

(** Replace the [Widget] subobject, keeping the subclass members. *)
Definition with_base (o : Object) (w : Widget) : Object :=
  match o with
  | Obj_Widget _ => Obj_Widget w
  | Obj_ButtonWidget _ => Obj_ButtonWidget w
  | Obj_LabelWidget _ => Obj_LabelWidget w
  | Obj_CheckBoxWidget _ => Obj_CheckBoxWidget w
  | Obj_GaugeWidget _ => Obj_GaugeWidget w
  | Obj_SpinnerWidget s =>
      Obj_SpinnerWidget
        (mkSpinnerWidget w (m_value s) (m_min s) (m_max s) (m_labels s)
                         (m_graphical s))
  | Obj_IconButtonWidget i =>
      Obj_IconButtonWidget (mkIconButtonWidget w (clickable i))
  | Obj_RibbonWidget r =>
      Obj_RibbonWidget (mkRibbonWidget w (m_selection r) (m_ribbon_type r))
  | Obj_RibbonGridWidget g =>
      Obj_RibbonGridWidget
        (mkRibbonGridWidget w (m_rows g) (m_items g) (m_label g)
           (m_scroll_offset g) (m_needed_cols g) (m_col_amount g)
           (m_has_label g) (m_left_widget g) (m_right_widget g))
  end.

(** ** Computations over the store *)

(** What goes wrong where C++ leaves the behaviour undefined. *)
Inductive Fault : Set :=
  | OutOfBounds   (* a subscript outside the sequence *)
  | Dangling      (* a pointer to no live object *)
  | BadCast.      (* [this] is not of the member function's class *)

Inductive Outcome (A : Type) : Type :=
  | Ok (a : A)
  | Crash (f : Fault).

Arguments Ok {A} a.
Arguments Crash {A} f.

(** A member function: it reads and writes the objects of the store and
    either returns or faults. *)
Definition M (A : Type) : Type :=
  gmap addr Object -> Outcome (A * gmap addr Object).

Definition ret {A} (a : A) : M A := fun st => Ok (a, st).

Definition fault {A} (f : Fault) : M A := fun _ => Crash f.

Definition bind {A B} (c : M A) (k : A -> M B) : M B :=
  fun st =>
    match c st with
    | Ok (a, st') => k a st'
    | Crash f => Crash f
    end.

Notation "'do' x <- c ; k" := (bind c (fun x => k))
  (at level 10, x name, c at level 100, k at level 200).

(** [*p] for a [Widget* p]. *)
Definition deref (p : addr) : M Object :=
  fun st =>
    match st !! p with
    | Some o => Ok (o, st)
    | None => Crash Dangling
    end.

(** Write back the object at [p]. *)
Definition update (p : addr) (o : Object) : M unit :=
  fun st => Ok (tt, <[p := o]> st).

(** [this] inside a member function of [RibbonWidget]. *)
Definition deref_ribbon (this : addr) : M RibbonWidget :=
  do o <- deref this;
  match o with
  | Obj_RibbonWidget r => ret r
  | _ => fault BadCast
  end.

(** Modelled from the spec: [ptr_vector.hpp], which declares the container
    of [m_children], is not among the sources.  [ptr_vector<Widget>] is a
    sequence of pointers to the widgets it owns; [v[i]] is the [i]-th
    widget for an index of the sequence, and the indexing is out of bounds
    for any other [int]. *)
Definition ptr_vector_subscript (v : list addr) (i : Z) : M addr :=
  if bool_decide (0 <= i < Z.of_nat (length v)) then
    match v !! Z.to_nat i with
    | Some p => ret p
    | None => fault OutOfBounds
    end
  else fault OutOfBounds.

(** ** Virtual member functions *)

(** The virtual member functions that [Widget] declares, widget.hpp:70-90
    (the destructor apart). *)
Inductive VirtualFn : Set :=
  | V_add
  | V_rightPressed
  | V_leftPressed
  | V_transmitEvent
  | V_mouseHovered
  | V_focused.

(** [overrides c f]: class [c] redeclares the virtual function [f] of
    [Widget] (widget.hpp:144-284). *)
Definition overrides (c : WidgetClass) (f : VirtualFn) : bool :=
  match c, f with
  | Class_Widget, _ => false
  | Class_ButtonWidget, V_add => true
  | Class_LabelWidget, V_add => true
  | Class_CheckBoxWidget, V_add => true
  | Class_GaugeWidget, V_add => true
  | Class_IconButtonWidget, V_add => true
  | Class_SpinnerWidget, (V_transmitEvent | V_rightPressed | V_leftPressed | V_add) => true
  | Class_RibbonWidget, _ => true
  | Class_RibbonGridWidget, _ => true
  | _, _ => false
  end.

(** The bodies of the overriding functions are defined outside the header;
    they are parameters of the model.  [body_transmitEvent] also returns
    the value left in the [std::string& originator] argument. *)
Record Bodies : Type := mkBodies {
  body_rightPressed : WidgetClass -> addr -> M bool;
  body_leftPressed : WidgetClass -> addr -> M bool;
  body_transmitEvent :
    WidgetClass -> addr -> option addr -> string -> M (bool * string);
  body_mouseHovered : WidgetClass -> addr -> option addr -> M bool
}.

(** The inline bodies of the base class, widget.hpp:77-87. *)
Module Base.

(** [virtual bool rightPressed() { return false; }] *)
Definition rightPressed (this : addr) : M bool := ret false.

(** [virtual bool leftPressed() { return false; }] *)
Definition leftPressed (this : addr) : M bool := ret false.

(** [virtual bool transmitEvent(Widget* w, std::string& originator)
    { return true; }] *)
Definition transmitEvent (this : addr) (w : option addr)
  (originator : string) : M (bool * string) :=
  ret (true, originator).

(** [virtual bool mouseHovered(Widget* child) { return false; }] *)
Definition mouseHovered (this : addr) (child : option addr) : M bool :=
  ret false.

End Base.

Section Dispatch.

Variable B : Bodies.

(** [this->rightPressed()]: the final overrider for the dynamic class of
    [*this] runs. *)
Definition rightPressed (this : addr) : M bool :=
  do o <- deref this;
  if overrides (class_of o) V_rightPressed
  then body_rightPressed B (class_of o) this
  else Base.rightPressed this.

Definition leftPressed (this : addr) : M bool :=
  do o <- deref this;
  if overrides (class_of o) V_leftPressed
  then body_leftPressed B (class_of o) this
  else Base.leftPressed this.

Definition transmitEvent (this : addr) (w : option addr)
  (originator : string) : M (bool * string) :=
  do o <- deref this;
  if overrides (class_of o) V_transmitEvent
  then body_transmitEvent B (class_of o) this w originator
  else Base.transmitEvent this w originator.

Definition mouseHovered (this : addr) (child : option addr) : M bool :=
  do o <- deref this;
  if overrides (class_of o) V_mouseHovered
  then body_mouseHovered B (class_of o) this child
  else Base.mouseHovered this child.

End Dispatch.

(** ** Inline accessors *)

(** [bool isSelected() const { return m_selected; }], widget.hpp:140. *)
Definition isSelected (this : addr) : M bool :=
  do o <- deref this;
  ret (m_selected (base o)).

(** [int getSelection() const { return m_selection; }], widget.hpp:225. *)
Definition getSelection (this : addr) : M Z :=
  do r <- deref_ribbon this;
  ret (m_selection r).

(** [RibbonType getRibbonType() const { return m_ribbon_type; }],
    widget.hpp:226. *)
Definition getRibbonType (this : addr) : M RibbonType :=
  do r <- deref_ribbon this;
  ret (m_ribbon_type r).

(** [const std::string& getSelectionName()
     { return m_children[m_selection].m_properties[PROP_ID]; }],
    widget.hpp:227.  The map of the selected child is written back: the
    subscript of [std::map] may have inserted the key. *)
Definition getSelectionName (this : addr) : M string :=
  do r <- deref_ribbon this;
  do c <- ptr_vector_subscript (m_children (Ribbon_base r)) (m_selection r);
  do co <- deref c;
  let sm := StdMap.subscript (m_properties (base co)) PROP_ID in
  do _ <- update c (with_base co (set_m_properties (base co) sm.2));
  ret sm.1.

(** [widget.m_properties[k] = v], on the public member of a widget. *)
Definition assign_property (w : Widget) (k : Property) (v : string) : Widget :=
  set_m_properties w (StdMap.assign (m_properties w) k v).

(** [widget.m_properties[k]] read as a value: the string and the widget
    after the read. *)
Definition read_property (w : Widget) (k : Property) : string * Widget :=
  let sm := StdMap.subscript (m_properties w) k in
  (sm.1, set_m_properties w sm.2).

(** ** Element kinds *)

(** The element kinds of the specification: buttons, labels, checkboxes,
    gauges, spinners, icon buttons, ribbons, ribbon grids. *)
Inductive ElementKind : Set :=
  | Kind_button
  | Kind_label
  | Kind_checkbox
  | Kind_gauge
  | Kind_spinner
  | Kind_icon_button
  | Kind_ribbon
  | Kind_ribbon_grid.

Definition all_ElementKind : list ElementKind :=
  [Kind_button; Kind_label; Kind_checkbox; Kind_gauge; Kind_spinner;
   Kind_icon_button; Kind_ribbon; Kind_ribbon_grid].

(** The subclass of [Widget] declared for a kind. *)
Definition kind_class (k : ElementKind) : WidgetClass :=
  match k with
  | Kind_button => Class_ButtonWidget
  | Kind_label => Class_LabelWidget
  | Kind_checkbox => Class_CheckBoxWidget
  | Kind_gauge => Class_GaugeWidget
  | Kind_spinner => Class_SpinnerWidget
  | Kind_icon_button => Class_IconButtonWidget
  | Kind_ribbon => Class_RibbonWidget
  | Kind_ribbon_grid => Class_RibbonGridWidget
  end.

(** The [WidgetType] enumerator named after a kind. *)
Definition kind_tag (k : ElementKind) : WidgetType :=
  match k with
  | Kind_button => WTYPE_BUTTON
  | Kind_label => WTYPE_LABEL
  | Kind_checkbox => WTYPE_CHECKBOX
  | Kind_gauge => WTYPE_GAUGE
  | Kind_spinner => WTYPE_SPINNER
  | Kind_icon_button => WTYPE_ICON_BUTTON
  | Kind_ribbon => WTYPE_RIBBON
  | Kind_ribbon_grid => WTYPE_RIBBON_GRID
  end.

(** The enumerators of [WidgetType] that name none of the listed kinds. *)
Definition other_tags : list WidgetType :=
  [WTYPE_NONE; WTYPE_MODEL; WTYPE_SPACER; WTYPE_DIV].

(** The widget carries, in [m_type], the tag of one of the listed kinds. *)
Definition carries_kind_tag (o : Object) : Prop :=
  exists k : ElementKind, m_type (base o) = kind_tag k.

(** ** The [void] virtual member functions *)

(** The bodies of the overriding [add] and [focused], defined outside the
    header; parameters of the model like those of [Bodies]. *)
Record VoidBodies : Type := mkVoidBodies {
  body_add : WidgetClass -> addr -> M unit;
  body_focused : WidgetClass -> addr -> M unit
}.

(** [virtual void add() {}], widget.hpp:70. *)
Definition Widget_add (this : addr) : M unit := ret tt.

(** [virtual void focused() {}], widget.hpp:90. *)
Definition Widget_focused (this : addr) : M unit := ret tt.

Section VoidDispatch.

Variable V : VoidBodies.

(** [this->add()]. *)
Definition add (this : addr) : M unit :=
  do o <- deref this;
  if overrides (class_of o) V_add
  then body_add V (class_of o) this
  else Widget_add this.

(** [this->focused()]. *)
Definition focused (this : addr) : M unit :=
  do o <- deref this;
  if overrides (class_of o) V_focused
  then body_focused V (class_of o) this
  else Widget_focused this.

End VoidDispatch.

(** The enumerator values of [enum RibbonType], counted from 0. *)
Definition RibbonType_value (t : RibbonType) : Z :=
  match t with
  | RIBBON_COMBO => 0
  | RIBBON_TOOLBAR => 1
  | RIBBON_TABS => 2
  end.

(** The object that the call leaves at an address, given the one it found
    there: the same class, the same members but [m_properties], and in
    [m_properties] the same entries but possibly [PROP_ID]. *)
Definition same_but_id (o o' : Object) : Prop :=
  class_of o' = class_of o /\
  with_base o' (set_m_properties (base o') (m_properties (base o))) = o /\
  forall k, k <> PROP_ID ->
    m_properties (base o') !! k = m_properties (base o) !! k.

(** ** Sample widgets *)

(** A toolbar ribbon at address 1 with two icon buttons at 2 and 3; the
    second button has no [PROP_ID]. *)
Definition sample_ribbon : RibbonWidget :=
  mkRibbonWidget
    (mkWidget false None [2%positive; 3%positive] WTYPE_RIBBON 0 0 200 40 7
       (Some 70%positive) {[ PROP_ID := "menu"%string ]})
    1 RIBBON_TOOLBAR.

Definition sample_button (name : option string) (sel : bool) : Object :=
  Obj_IconButtonWidget
    (mkIconButtonWidget
       (mkWidget sel (Some 1%positive) [] WTYPE_ICON_BUTTON 0 0 40 40 8 None
          (match name with
           | Some s => {[ PROP_ID := s ]}
           | None => ∅
           end))
       true).

(** A plain [Widget] tagged as a div at address 4, with a button at 5 that
    names it as its [m_parent]. *)
Definition sample_div : Object :=
  Obj_Widget
    (mkWidget false None [5%positive] WTYPE_DIV 0 50 200 100 9 None ∅).

Definition sample_div_button : Object :=
  Obj_ButtonWidget
    (mkWidget false (Some 4%positive) [] WTYPE_BUTTON 10 60 80 30 10
       (Some 71%positive) {[ PROP_ID := "ok"%string ]}).

Definition sample_store : gmap addr Object :=
  <[1%positive := Obj_RibbonWidget sample_ribbon]>
    (<[2%positive := sample_button (Some "new"%string) true]>
       (<[3%positive := sample_button None false]>
          (<[4%positive := sample_div]>
             (<[5%positive := sample_div_button]> ∅)))).

(** The same ribbon with another [m_selection]. *)
Definition select (i : Z) : RibbonWidget :=
  mkRibbonWidget (Ribbon_base sample_ribbon) i (m_ribbon_type sample_ribbon).

Definition sample_store_selecting (i : Z) : gmap addr Object :=
  <[1%positive := Obj_RibbonWidget (select i)]> sample_store.

(** Bodies that claim every event and notify the main handler: the
    opposite of the defaults. *)
Definition eager_bodies : Bodies :=
  mkBodies (fun _ _ => ret true) (fun _ _ => ret true)
           (fun _ _ _ s => ret (false, s)) (fun _ _ _ => ret true).

(** Bodies of [add] and [focused] that select the widget they run on. *)
Definition selecting_bodies : VoidBodies :=
  let mark (_ : WidgetClass) (this : addr) : M unit :=
    do o <- deref this;
    update this
      (with_base o
         (mkWidget true (m_parent (base o)) (m_children (base o))
            (m_type (base o)) (Widget_x (base o)) (Widget_y (base o))
            (Widget_w (base o)) (Widget_h (base o)) (Widget_id (base o))
            (m_element (base o)) (m_properties (base o)))) in
  mkVoidBodies mark mark.

(** ** Tactics *)

(** Membership in a list written out. *)
Ltac in_list :=
  solve [ repeat first [ apply list_elem_of_here | apply list_elem_of_further ] ].

Ltac not_in_list :=
  let H := fresh "Hin" in
  intros H;
  repeat (apply elem_of_cons in H as [H|H]; [discriminate|]);
  by apply elem_of_nil in H.

(** * Properties *)

(** ** The monad and the store *)

Lemma bind_Ok {A B} (c : M A) (k : A -> M B) st a st' :
  c st = Ok (a, st') -> bind c k st = k a st'.
Proof. unfold bind. by intros ->. Qed.

Lemma bind_Crash {A B} (c : M A) (k : A -> M B) st f :
  c st = Crash f -> bind c k st = Crash f.
Proof. unfold bind. by intros ->. Qed.

Lemma deref_live p o (st : gmap addr Object) :
  st !! p = Some o -> deref p st = Ok (o, st).
Proof. unfold deref. by intros ->. Qed.

Lemma deref_ribbon_live this r (st : gmap addr Object) :
  st !! this = Some (Obj_RibbonWidget r) -> deref_ribbon this st = Ok (r, st).
Proof.
  intros Hthis. unfold deref_ribbon.
  by rewrite (bind_Ok _ _ _ _ _ (deref_live _ _ _ Hthis)).
Qed.

Lemma with_base_base (o : Object) : with_base o (base o) = o.
Proof. by destruct o as [[]|[]|[]|[]|[]|[[]]|[[]]|[[]]|[[]]]. Qed.

Lemma base_with_base (o : Object) (w : Widget) : base (with_base o w) = w.
Proof. by destruct o. Qed.

Lemma class_of_with_base (o : Object) (w : Widget) :
  class_of (with_base o w) = class_of o.
Proof. by destruct o. Qed.

Lemma set_m_properties_id (w : Widget) : set_m_properties w (m_properties w) = w.
Proof. by destruct w. Qed.

(** ** [std::map] subscripts *)

Lemma subscript_value (m : gmap Property string) k :
  (StdMap.subscript m k).1 = default EmptyString (m !! k).
Proof. unfold StdMap.subscript. by destruct (m !! k). Qed.

Lemma subscript_lookup (m : gmap Property string) k k' :
  (StdMap.subscript m k).2 !! k' =
  if decide (k = k') then Some (StdMap.subscript m k).1 else m !! k'.
Proof.
  unfold StdMap.subscript.
  destruct (m !! k) as [s|] eqn:Hk; simpl.
  - case_decide; by subst.
  - by rewrite lookup_insert.
Qed.

Lemma subscript_present (m : gmap Property string) k s :
  m !! k = Some s -> StdMap.subscript m k = (s, m).
Proof. unfold StdMap.subscript. by intros ->. Qed.

Lemma assign_insert (m : gmap Property string) k v :
  StdMap.assign m k v = <[k := v]> m.
Proof.
  unfold StdMap.assign, StdMap.subscript.
  destruct (m !! k); simpl; [done | by rewrite insert_insert_eq].
Qed.

(** *** C4 *)

(** C4: for every widget, storing a string under a [Property] key of
    [m_properties] and then reading that key returns the stored string (the
    read leaves the widget as the store left it), and the store leaves what
    is stored under every other key unchanged, also as read through the
    subscript. *)
Theorem property_store_then_read (w : Widget) (k : Property) (v : string) :
  read_property (assign_property w k v) k = (v, assign_property w k v) /\
  forall k' : Property, k' <> k ->
    m_properties (assign_property w k v) !! k' = m_properties w !! k' /\
    (read_property (assign_property w k v) k').1 = (read_property w k').1.
Proof.
  unfold read_property, assign_property. destruct w as [sel par ch ty x y wd h i el props].
  simpl. rewrite assign_insert. split.
  - by rewrite (subscript_present _ k v) by apply lookup_insert_eq.
  - intros k' Hne.
    assert (<[k:=v]> props !! k' = props !! k') as Hother
      by (by apply lookup_insert_ne).
    split; [done | by rewrite !subscript_value, Hother].
Qed.

Lemma property_store_then_read_witness :
  let w := mkWidget false None [] WTYPE_LABEL 0 0 10 10 1 None
             {[ PROP_TEXT := "Race"%string ]} in
  read_property (assign_property w PROP_ID "title"%string) PROP_ID
    = ("title"%string, assign_property w PROP_ID "title"%string) /\
  m_properties (assign_property w PROP_ID "title"%string) !! PROP_TEXT
    = Some "Race"%string /\
  (read_property (assign_property w PROP_ID "title"%string) PROP_TEXT).1
    = "Race"%string.
Proof.
  intros w.
  destruct (property_store_then_read w PROP_ID "title"%string) as [Hread Hframe].
  destruct (Hframe PROP_TEXT ltac:(discriminate)) as [Hlook Hval].
  split; [exact Hread | split].
  - rewrite Hlook. reflexivity.
  - rewrite Hval. reflexivity.
Defined.

(** ** Const accessors *)

(** *** C8 *)

(** C8: the const accessors are pure reads.  On every store and for every
    live widget, [isSelected] returns the [m_selected] member; for every
    [RibbonWidget], [getSelection] returns [m_selection] and
    [getRibbonType] returns [m_ribbon_type]; each call leaves the whole
    store, so every member of the widget and of its children, as it was. *)
Theorem const_accessors_pure (st : gmap addr Object) (this : addr) (o : Object) :
  st !! this = Some o ->
  isSelected this st = Ok (m_selected (base o), st) /\
  forall r : RibbonWidget, o = Obj_RibbonWidget r ->
    getSelection this st = Ok (m_selection r, st) /\
    getRibbonType this st = Ok (m_ribbon_type r, st).
Proof.
  intros Hthis. split.
  - unfold isSelected. by rewrite (bind_Ok _ _ _ _ _ (deref_live _ _ _ Hthis)).
  - intros r ->. unfold getSelection, getRibbonType.
    by rewrite !(bind_Ok _ _ _ _ _ (deref_ribbon_live _ _ _ Hthis)).
Qed.

Lemma const_accessors_pure_witness :
  isSelected 1%positive sample_store = Ok (false, sample_store) /\
  getSelection 1%positive sample_store = Ok (1, sample_store) /\
  getRibbonType 1%positive sample_store = Ok (RIBBON_TOOLBAR, sample_store).
Proof.
  destruct (const_accessors_pure sample_store 1%positive
              (Obj_RibbonWidget sample_ribbon) eq_refl) as [Hsel Hrib].
  destruct (Hrib sample_ribbon eq_refl) as [Hget Htype].
  split; [exact Hsel | split; [exact Hget | exact Htype]].
Defined.

(** ** Virtual handlers *)

(** *** C7 *)

(** C7: for a widget whose class does not override a handler, the inline
    body of [Widget] runs: [rightPressed], [leftPressed] and
    [mouseHovered] return [false] and [transmitEvent] returns [true]
    (leaving the originator string as passed); none of them changes the
    store, whatever the bodies of the overriding classes are. *)
Theorem base_handlers_default (B : Bodies) (st : gmap addr Object)
    (this : addr) (o : Object) :
  st !! this = Some o ->
  (overrides (class_of o) V_rightPressed = false ->
     rightPressed B this st = Ok (false, st)) /\
  (overrides (class_of o) V_leftPressed = false ->
     leftPressed B this st = Ok (false, st)) /\
  (overrides (class_of o) V_mouseHovered = false ->
     forall child, mouseHovered B this child st = Ok (false, st)) /\
  (overrides (class_of o) V_transmitEvent = false ->
     forall w originator,
       transmitEvent B this w originator st = Ok ((true, originator), st)).
Proof.
  intros Hthis.
  pose proof (deref_live _ _ _ Hthis) as Hd.
  repeat split.
  - intros Hov. unfold rightPressed. by rewrite (bind_Ok _ _ _ _ _ Hd), Hov.
  - intros Hov. unfold leftPressed. by rewrite (bind_Ok _ _ _ _ _ Hd), Hov.
  - intros Hov child. unfold mouseHovered. by rewrite (bind_Ok _ _ _ _ _ Hd), Hov.
  - intros Hov w originator. unfold transmitEvent.
    by rewrite (bind_Ok _ _ _ _ _ Hd), Hov.
Qed.

Lemma base_handlers_default_witness :
  rightPressed eager_bodies 2%positive sample_store = Ok (false, sample_store) /\
  leftPressed eager_bodies 2%positive sample_store = Ok (false, sample_store) /\
  mouseHovered eager_bodies 2%positive (Some 3%positive) sample_store
    = Ok (false, sample_store) /\
  transmitEvent eager_bodies 2%positive (Some 3%positive) "new"%string sample_store
    = Ok ((true, "new"%string), sample_store).
Proof.
  destruct (base_handlers_default eager_bodies sample_store 2%positive
              (sample_button (Some "new"%string) true) eq_refl)
    as (Hr & Hl & Hm & Ht).
  split; [exact (Hr eq_refl) | split; [exact (Hl eq_refl) | split]].
  - exact (Hm eq_refl (Some 3%positive)).
  - exact (Ht eq_refl (Some 3%positive) "new"%string).
Defined.

(** ** [RibbonWidget::getSelectionName] *)

Lemma ptr_vector_subscript_in (v : list addr) (i : Z) (p : addr) st :
  0 <= i -> v !! Z.to_nat i = Some p -> ptr_vector_subscript v i st = Ok (p, st).
Proof.
  intros Hi Hp. unfold ptr_vector_subscript.
  apply lookup_lt_Some in Hp as Hlt.
  rewrite bool_decide_eq_true_2 by lia. by rewrite Hp.
Qed.

Lemma ptr_vector_subscript_out (v : list addr) (i : Z) st :
  ~ (0 <= i < Z.of_nat (length v)) ->
  ptr_vector_subscript v i st = Crash OutOfBounds.
Proof.
  intros Hi. unfold ptr_vector_subscript.
  by rewrite bool_decide_eq_false_2.
Qed.

Lemma ptr_vector_subscript_Ok (v : list addr) (i : Z) st res :
  ptr_vector_subscript v i st = Ok res -> 0 <= i < Z.of_nat (length v).
Proof.
  unfold ptr_vector_subscript. case_bool_decide; [done | discriminate].
Qed.

Lemma getSelectionName_in_range (st : gmap addr Object) this r c co :
  st !! this = Some (Obj_RibbonWidget r) ->
  0 <= m_selection r ->
  m_children (Ribbon_base r) !! Z.to_nat (m_selection r) = Some c ->
  st !! c = Some co ->
  getSelectionName this st =
    Ok ((StdMap.subscript (m_properties (base co)) PROP_ID).1,
        <[c := with_base co
                 (set_m_properties (base co)
                    (StdMap.subscript (m_properties (base co)) PROP_ID).2)]> st).
Proof.
  intros Hthis Hsel Hc Hco. unfold getSelectionName.
  rewrite (bind_Ok _ _ _ _ _ (deref_ribbon_live _ _ _ Hthis)).
  rewrite (bind_Ok _ _ _ _ _ (ptr_vector_subscript_in _ _ _ _ Hsel Hc)).
  by rewrite (bind_Ok _ _ _ _ _ (deref_live _ _ _ Hco)).
Qed.

Lemma getSelectionName_out_of_range (st : gmap addr Object) this r :
  st !! this = Some (Obj_RibbonWidget r) ->
  ~ (0 <= m_selection r < Z.of_nat (length (m_children (Ribbon_base r)))) ->
  getSelectionName this st = Crash OutOfBounds.
Proof.
  intros Hthis Hsel. unfold getSelectionName.
  rewrite (bind_Ok _ _ _ _ _ (deref_ribbon_live _ _ _ Hthis)).
  by rewrite (bind_Crash _ _ _ _ (ptr_vector_subscript_out _ _ _ Hsel)).
Qed.

Lemma getSelectionName_Ok_in_range (st : gmap addr Object) this r res :
  st !! this = Some (Obj_RibbonWidget r) ->
  getSelectionName this st = Ok res ->
  0 <= m_selection r < Z.of_nat (length (m_children (Ribbon_base r))).
Proof.
  intros Hthis. unfold getSelectionName.
  rewrite (bind_Ok _ _ _ _ _ (deref_ribbon_live _ _ _ Hthis)).
  unfold bind at 1.
  destruct (ptr_vector_subscript _ _ st) as [[c st1]|f] eqn:Hsub; [|discriminate].
  intros _. by eapply ptr_vector_subscript_Ok.
Qed.

(** The call writes at most the property map of the selected child: every
    other object is left alone, and the child keeps its class and every
    member but [m_properties]. *)
Lemma getSelectionName_frame (st st' : gmap addr Object) this r c co name :
  st !! this = Some (Obj_RibbonWidget r) ->
  0 <= m_selection r ->
  m_children (Ribbon_base r) !! Z.to_nat (m_selection r) = Some c ->
  st !! c = Some co ->
  getSelectionName this st = Ok (name, st') ->
  (forall p, p <> c -> st' !! p = st !! p) /\
  exists m, st' !! c = Some (with_base co (set_m_properties (base co) m)) /\
            class_of (with_base co (set_m_properties (base co) m)) = class_of co.
Proof.
  intros Hthis Hsel Hc Hco.
  rewrite (getSelectionName_in_range _ _ _ _ _ Hthis Hsel Hc Hco).
  intros [= _ <-]. split.
  - intros p Hne. by apply lookup_insert_ne.
  - eexists. split; [apply lookup_insert_eq | apply class_of_with_base].
Qed.

(** *** C3 *)

(** C3: for a [RibbonWidget] whose [m_selection] is an index of its child
    list (the child being a live widget), [getSelectionName] returns the
    string stored under [PROP_ID] in the child at that index: the string
    that the child holds under [PROP_ID] after the call, and, when the
    child already held one, that string, with the store left as it was. *)
Theorem getSelectionName_returns_child_id (st : gmap addr Object)
    (this c : addr) (r : RibbonWidget) (co : Object) :
  st !! this = Some (Obj_RibbonWidget r) ->
  0 <= m_selection r < Z.of_nat (length (m_children (Ribbon_base r))) ->
  m_children (Ribbon_base r) !! Z.to_nat (m_selection r) = Some c ->
  st !! c = Some co ->
  exists (name : string) (st' : gmap addr Object),
    getSelectionName this st = Ok (name, st') /\
    (exists co', st' !! c = Some co' /\
                 m_properties (base co') !! PROP_ID = Some name) /\
    (forall s, m_properties (base co) !! PROP_ID = Some s ->
               name = s /\ st' = st).
Proof.
  intros Hthis [Hsel _] Hc Hco.
  eexists _, _. split; [by eapply getSelectionName_in_range|]. split.
  - eexists. split; [apply lookup_insert_eq|].
    rewrite base_with_base. simpl.
    rewrite subscript_lookup. by case_decide.
  - intros s Hs. rewrite (subscript_present _ _ _ Hs). simpl.
    split; [done|].
    rewrite set_m_properties_id, with_base_base. by apply insert_id.
Qed.

Lemma getSelectionName_returns_child_id_witness :
  getSelectionName 1%positive (sample_store_selecting 0)
    = Ok ("new"%string, sample_store_selecting 0).
Proof.
  destruct (getSelectionName_returns_child_id (sample_store_selecting 0)
              1%positive 2%positive (select 0)
              (sample_button (Some "new"%string) true))
    as (name & st' & Hcall & _ & Hsame).
  - reflexivity.
  - simpl. lia.
  - reflexivity.
  - reflexivity.
  - destruct (Hsame "new"%string eq_refl) as [-> ->]. exact Hcall.
Defined.

(** *** C9 *)

(** C9: [getSelectionName] returns only when
    [0 <= m_selection < number of children]; for any other [m_selection]
    the child indexing is out of bounds.  It is not a pure accessor: when
    the selected child holds no [PROP_ID], the call returns the empty
    string and leaves the child with the empty string inserted under
    [PROP_ID], a store different from the one before the call. *)
Theorem getSelectionName_unsafe_and_impure (st : gmap addr Object)
    (this : addr) (r : RibbonWidget) :
  st !! this = Some (Obj_RibbonWidget r) ->
  (forall res, getSelectionName this st = Ok res ->
     0 <= m_selection r < Z.of_nat (length (m_children (Ribbon_base r)))) /\
  (~ (0 <= m_selection r < Z.of_nat (length (m_children (Ribbon_base r)))) ->
     getSelectionName this st = Crash OutOfBounds) /\
  (forall (c : addr) (co : Object),
     0 <= m_selection r ->
     m_children (Ribbon_base r) !! Z.to_nat (m_selection r) = Some c ->
     st !! c = Some co ->
     m_properties (base co) !! PROP_ID = None ->
     let st' :=
       <[c := with_base co
                (set_m_properties (base co)
                   (<[PROP_ID := EmptyString]> (m_properties (base co))))]> st in
     getSelectionName this st = Ok (EmptyString, st') /\ st' <> st).
Proof.
  intros Hthis. split; [|split].
  - intros res. by apply getSelectionName_Ok_in_range.
  - by apply getSelectionName_out_of_range.
  - intros c co Hsel Hc Hco Hnone st'. split.
    + rewrite (getSelectionName_in_range _ _ _ _ _ Hthis Hsel Hc Hco).
      unfold StdMap.subscript. by rewrite Hnone.
    + intros Heq.
      assert (st' !! c = Some co) as Hlook by (by rewrite Heq).
      unfold st' in Hlook. rewrite lookup_insert_eq in Hlook.
      injection Hlook as Hobj.
      apply (f_equal (fun o => m_properties (base o) !! PROP_ID)) in Hobj.
      rewrite base_with_base in Hobj. simpl in Hobj.
      rewrite lookup_insert_eq, Hnone in Hobj. discriminate.
Qed.

Lemma getSelectionName_unsafe_and_impure_witness :
  getSelectionName 1%positive sample_store
    = Ok (EmptyString,
          <[3%positive := sample_button (Some EmptyString) false]> sample_store) /\
  <[3%positive := sample_button (Some EmptyString) false]> sample_store
    <> sample_store /\
  getSelectionName 1%positive (sample_store_selecting 2) = Crash OutOfBounds /\
  getSelectionName 1%positive (sample_store_selecting (-1)) = Crash OutOfBounds.
Proof.
  destruct (getSelectionName_unsafe_and_impure sample_store 1%positive
              sample_ribbon) as (_ & _ & Himpure); [reflexivity|].
  destruct (Himpure 3%positive (sample_button None false)) as [Hcall Hne];
    [simpl; lia | reflexivity | reflexivity | reflexivity |].
  destruct (getSelectionName_unsafe_and_impure (sample_store_selecting 2)
              1%positive (select 2)) as (_ & Hhigh & _); [reflexivity|].
  destruct (getSelectionName_unsafe_and_impure (sample_store_selecting (-1))
              1%positive (select (-1))) as (_ & Hlow & _); [reflexivity|].
  split; [exact Hcall | split; [exact Hne | split]].
  - apply Hhigh. simpl. lia.
  - apply Hlow. simpl. lia.
Defined.

(** ** Classes and type tags *)

(** C2, as stated, fails: a plain [Widget] tagged [WTYPE_DIV] carries none
    of the tags of the eight listed kinds in [m_type]. *)
Lemma div_widget_has_no_kind_tag :
  m_type (base sample_div) = WTYPE_DIV /\ ~ carries_kind_tag sample_div.
Proof.
  split; [reflexivity|].
  intros [k Hk]. by destruct k.
Qed.

(** *** C2 *)

(** C2, amended: each of the eight listed kinds has its own subclass
    deriving from [Widget], of which objects exist, and its own
    [WidgetType] enumerator, with pairwise distinct values.  [WidgetType]
    has four more enumerators ([WTYPE_NONE], [WTYPE_MODEL], [WTYPE_SPACER],
    [WTYPE_DIV]) that belong to none of these kinds, and [m_type] of a
    widget holds one enumerator, either the tag of exactly one listed kind
    or one of those four. *)
Theorem kinds_subclasses_and_tags :
  (forall k : ElementKind, k ∈ all_ElementKind) /\
  NoDup (kind_class <$> all_ElementKind) /\
  (forall k : ElementKind,
     base_class (kind_class k) = Some Class_Widget /\
     exists o : Object, class_of o = kind_class k) /\
  NoDup ((fun k => WidgetType_value (kind_tag k)) <$> all_ElementKind) /\
  (forall t : WidgetType,
     t ∈ all_WidgetType /\
     ((exists k, kind_tag k = t) <-> t ∉ other_tags)) /\
  (forall o : Object,
     (m_type (base o) ∈ other_tags /\ ~ carries_kind_tag o) \/
     ((m_type (base o) ∉ other_tags) /\
      exists k, m_type (base o) = kind_tag k /\
                forall k', m_type (base o) = kind_tag k' -> k' = k)).
Proof.
  split; [|split; [|split; [|split; [|split]]]].
  - intros k. unfold all_ElementKind. destruct k; in_list.
  - apply (bool_decide_unpack _). by vm_compute.
  - intros k. split; [by destruct k|].
    set (w := mkWidget false None [] (kind_tag k) 0 0 0 0 0 None ∅).
    destruct k.
    + by exists (Obj_ButtonWidget w).
    + by exists (Obj_LabelWidget w).
    + by exists (Obj_CheckBoxWidget w).
    + by exists (Obj_GaugeWidget w).
    + by exists (Obj_SpinnerWidget (mkSpinnerWidget w 0 0 0 [] false)).
    + by exists (Obj_IconButtonWidget (mkIconButtonWidget w true)).
    + by exists (Obj_RibbonWidget (mkRibbonWidget w 0 RIBBON_COMBO)).
    + by exists (Obj_RibbonGridWidget
                   (mkRibbonGridWidget w [] [] None 0 0 0 false None None)).
  - apply (bool_decide_unpack _). by vm_compute.
  - intros t. split.
    + unfold all_WidgetType. destruct t; in_list.
    + unfold other_tags. split.
      * intros [k <-]. destruct k; not_in_list.
      * intros Hnot. destruct t;
          try (exfalso; apply Hnot; in_list);
          [ by exists Kind_ribbon | by exists Kind_spinner
          | by exists Kind_button | by exists Kind_gauge
          | by exists Kind_icon_button | by exists Kind_checkbox
          | by exists Kind_label | by exists Kind_ribbon_grid ].
  - intros o. unfold carries_kind_tag, other_tags.
    destruct (m_type (base o)) eqn:Ht;
      try (left; split; [in_list | by intros [[] ?]]);
      right; (split; [not_in_list|]);
      [ exists Kind_ribbon | exists Kind_spinner | exists Kind_button
      | exists Kind_gauge | exists Kind_icon_button | exists Kind_checkbox
      | exists Kind_label | exists Kind_ribbon_grid ];
      (split; [done | by intros []]).
Qed.

Lemma kinds_subclasses_and_tags_witness :
  (m_type (base sample_div) ∈ other_tags /\ ~ carries_kind_tag sample_div) /\
  (forall k, m_type (base sample_div_button) = kind_tag k -> k = Kind_button).
Proof.
  destruct kinds_subclasses_and_tags as (_ & _ & _ & _ & _ & Hobj).
  split.
  - destruct (Hobj sample_div) as [Hother | [Hnot _]]; [exact Hother|].
    exfalso. apply Hnot. unfold other_tags. in_list.
  - destruct (Hobj sample_div_button) as [[Hin _] | (_ & k & Hk & Huniq)].
    + exfalso. revert Hin. unfold other_tags. not_in_list.
    + intros k' Hk'. rewrite (Huniq k' Hk').
      symmetry. apply Huniq. reflexivity.
Defined.

(** * Further properties *)

(** ** The property map of a widget *)

Lemma read_property_present (w : Widget) k s :
  m_properties w !! k = Some s -> read_property w k = (s, w).
Proof.
  intros Hk. unfold read_property.
  rewrite (subscript_present _ _ _ Hk). simpl.
  by rewrite set_m_properties_id.
Qed.

Lemma read_property_lookup (w : Widget) k :
  m_properties (read_property w k).2 !! k = Some (read_property w k).1.
Proof.
  unfold read_property. simpl. rewrite subscript_lookup. by case_decide.
Qed.

Lemma set_m_properties_twice (w : Widget) m1 m2 :
  set_m_properties (set_m_properties w m1) m2 = set_m_properties w m2.
Proof. done. Qed.

(** X1: reading a property that the widget does not hold returns the empty
    string and is not a pure read: it leaves the widget as an assignment
    of the empty string to that key would, the key now present and the
    map one entry larger, every other key as before. *)
Theorem read_missing_property_inserts (w : Widget) (k : Property) :
  m_properties w !! k = None ->
  read_property w k = (EmptyString, assign_property w k EmptyString) /\
  m_properties (read_property w k).2 !! k = Some EmptyString /\
  dom (m_properties (read_property w k).2) = {[k]} ∪ dom (m_properties w) /\
  size (m_properties (read_property w k).2) = S (size (m_properties w)) /\
  forall k', k' <> k ->
    m_properties (read_property w k).2 !! k' = m_properties w !! k'.
Proof.
  intros Hk.
  assert (read_property w k = (EmptyString, assign_property w k EmptyString))
    as Hread.
  { unfold read_property, assign_property. rewrite assign_insert.
    unfold StdMap.subscript. by rewrite Hk. }
  rewrite Hread. unfold assign_property. simpl. rewrite assign_insert.
  split; [done|]. split; [apply lookup_insert_eq|].
  split; [apply dom_insert_L|].
  split; [by apply map_size_insert_None|].
  intros k' Hne. by apply lookup_insert_ne.
Qed.

Lemma read_missing_property_inserts_witness :
  read_property (base sample_div) PROP_TEXT
    = (EmptyString, assign_property (base sample_div) PROP_TEXT EmptyString) /\
  size (m_properties (read_property (base sample_div) PROP_TEXT).2) = 1%nat.
Proof.
  destruct (read_missing_property_inserts (base sample_div) PROP_TEXT eq_refl)
    as (Hread & _ & _ & Hsize & _).
  split; [exact Hread | exact Hsize].
Defined.

(** X2: reads settle.  A second read of the same key returns the same
    string and changes nothing more; a read of a key the widget holds
    changes nothing at all; and reads of two keys can be done in either
    order: the strings and the final widget are the same. *)
Theorem read_property_settles (w : Widget) (k k' : Property) :
  read_property (read_property w k).2 k = read_property w k /\
  (forall s, m_properties w !! k = Some s -> read_property w k = (s, w)) /\
  (read_property (read_property w k).2 k').1 = (read_property w k').1 /\
  (read_property (read_property w k).2 k').2
    = (read_property (read_property w k').2 k).2.
Proof.
  split; [|split; [|split]].
  - rewrite (read_property_present _ _ _ (read_property_lookup w k)).
    by destruct (read_property w k).
  - intros s. apply read_property_present.
  - unfold read_property. simpl. rewrite !subscript_value, subscript_lookup.
    case_decide as Hk; [subst k'|done].
    by rewrite subscript_value.
  - unfold read_property. simpl. rewrite !set_m_properties_twice. f_equal.
    apply map_eq. intros j. rewrite !subscript_lookup.
    rewrite !subscript_value, !subscript_lookup.
    repeat case_decide; subst; try done.
    all: by rewrite ?subscript_value.
Qed.

Lemma read_property_settles_witness :
  read_property (base sample_div_button) PROP_ID
    = ("ok"%string, base sample_div_button).
Proof.
  destruct (read_property_settles (base sample_div_button) PROP_ID PROP_TEXT)
    as (_ & Hpresent & _).
  exact (Hpresent "ok"%string eq_refl).
Defined.

(** X3: assignments to the property map compose as writes to a store.  The
    last assignment to a key wins, assignments to different keys can be
    swapped, assigning the string a key already holds changes nothing, and
    an assignment touches no member of the widget but [m_properties]. *)
Theorem assign_property_composes (w : Widget) (k k' : Property)
    (v v' : string) :
  assign_property (assign_property w k v) k v' = assign_property w k v' /\
  (k <> k' ->
     assign_property (assign_property w k v) k' v'
       = assign_property (assign_property w k' v') k v) /\
  (m_properties w !! k = Some v -> assign_property w k v = w) /\
  set_m_properties (assign_property w k v) (m_properties w) = w.
Proof.
  unfold assign_property. rewrite !set_m_properties_twice.
  split; [|split; [|split]].
  - simpl. rewrite !assign_insert. by rewrite insert_insert_eq.
  - intros Hne. simpl. rewrite !assign_insert. f_equal.
    by apply insert_insert_ne.
  - intros Hk. rewrite assign_insert, (insert_id _ _ _ Hk).
    apply set_m_properties_id.
  - apply set_m_properties_id.
Qed.

Lemma assign_property_composes_witness :
  assign_property (assign_property (base sample_div) PROP_X "10%"%string)
      PROP_Y "5"%string
    = assign_property (assign_property (base sample_div) PROP_Y "5"%string)
        PROP_X "10%"%string /\
  assign_property (base sample_div_button) PROP_ID "ok"%string
    = base sample_div_button.
Proof.
  split.
  - destruct (assign_property_composes (base sample_div) PROP_X PROP_Y
                "10%"%string "5"%string) as (_ & Hswap & _).
    apply Hswap. discriminate.
  - destruct (assign_property_composes (base sample_div_button) PROP_ID PROP_ID
                "ok"%string "ok"%string) as (_ & _ & Hsame & _).
    apply Hsame. reflexivity.
Defined.

(** ** What [getSelectionName] does to the store *)

Lemma getSelectionName_Ok_inv (st st' : gmap addr Object) this name :
  getSelectionName this st = Ok (name, st') ->
  exists r c co,
    st !! this = Some (Obj_RibbonWidget r) /\
    0 <= m_selection r /\
    m_children (Ribbon_base r) !! Z.to_nat (m_selection r) = Some c /\
    st !! c = Some co /\
    name = (StdMap.subscript (m_properties (base co)) PROP_ID).1 /\
    st' = <[c := with_base co
                   (set_m_properties (base co)
                      (StdMap.subscript (m_properties (base co)) PROP_ID).2)]> st.
Proof.
  unfold getSelectionName, deref_ribbon, ptr_vector_subscript.
  unfold bind at 1 2. unfold deref at 1.
  destruct (st !! this) as [o|] eqn:Hthis; [|discriminate].
  destruct o as [| | | | | | |r|]; try discriminate.
  unfold ret at 1. unfold bind at 1.
  case_bool_decide as Hrange; [|discriminate].
  destruct (m_children (Ribbon_base r) !! Z.to_nat (m_selection r))
    as [c|] eqn:Hc; [|discriminate].
  unfold ret at 1. unfold bind at 1. unfold deref.
  destruct (st !! c) as [co|] eqn:Hco; [|discriminate].
  unfold bind, update, ret. intros [= <- <-].
  exists r, c, co. repeat split; try done. lia.
Qed.

Lemma same_but_id_refl (o : Object) : same_but_id o o.
Proof.
  split; [done|]. split; [|done].
  by rewrite set_m_properties_id, with_base_base.
Qed.

Lemma with_base_twice (o : Object) (w1 w2 : Widget) :
  with_base (with_base o w1) w2 = with_base o w2.
Proof. by destruct o. Qed.

Lemma same_but_id_subscript (o : Object) :
  same_but_id o
    (with_base o
       (set_m_properties (base o)
          (StdMap.subscript (m_properties (base o)) PROP_ID).2)).
Proof.
  split; [apply class_of_with_base|]. split.
  - rewrite base_with_base, with_base_twice, set_m_properties_twice.
    by rewrite set_m_properties_id, with_base_base.
  - intros k Hk. rewrite base_with_base. simpl.
    rewrite subscript_lookup. by case_decide.
Qed.

Lemma getSelectionName_effect (st st' : gmap addr Object) this name :
  getSelectionName this st = Ok (name, st') ->
  exists c co,
    st !! c = Some co /\
    st' = <[c := with_base co
                   (set_m_properties (base co)
                      (StdMap.subscript (m_properties (base co)) PROP_ID).2)]> st /\
    (forall p, p <> c -> st' !! p = st !! p) /\
    (forall s, m_properties (base co) !! PROP_ID = Some s -> st' = st).
Proof.
  intros (r & c & co & _ & _ & _ & Hco & _ & ->)%getSelectionName_Ok_inv.
  exists c, co. split; [done|]. split; [done|]. split.
  - intros p Hne. by apply lookup_insert_ne.
  - intros s Hs. rewrite (subscript_present _ _ _ Hs). simpl.
    rewrite set_m_properties_id, with_base_base. by apply insert_id.
Qed.

Lemma getSelectionName_pointwise (st st' : gmap addr Object) this name p :
  getSelectionName this st = Ok (name, st') ->
  match st !! p with
  | Some o => exists o', st' !! p = Some o' /\ same_but_id o o'
  | None => st' !! p = None
  end.
Proof.
  intros (c & co & Hco & -> & _ & _)%getSelectionName_effect.
  destruct (decide (p = c)) as [->|Hne].
  - rewrite Hco, lookup_insert_eq. eexists. split; [done|].
    apply same_but_id_subscript.
  - rewrite lookup_insert_ne by done.
    destruct (st !! p) as [o|]; [|done].
    exists o. split; [done | apply same_but_id_refl].
Qed.

Lemma same_but_id_selected (o o' : Object) :
  same_but_id o o' -> m_selected (base o') = m_selected (base o).
Proof.
  intros (_ & <- & _). by rewrite base_with_base.
Qed.

Lemma same_but_id_ribbon (o' : Object) (r : RibbonWidget) :
  same_but_id (Obj_RibbonWidget r) o' ->
  exists r', o' = Obj_RibbonWidget r' /\
             m_selection r' = m_selection r /\
             m_ribbon_type r' = m_ribbon_type r /\
             m_children (Ribbon_base r') = m_children (Ribbon_base r).
Proof.
  intros (Hclass & Hobj & _).
  destruct o' as [| | | | | | |r'|]; try discriminate.
  exists r'. split; [done|].
  simpl in Hobj. injection Hobj as <-. by destruct r' as [[] ? ?].
Qed.

(** X4: a second call of [getSelectionName] returns the same name as the
    first and changes nothing more: whatever the first call inserted, the
    store it left is a fixed point of the call. *)
Theorem getSelectionName_twice (st st' : gmap addr Object) (this : addr)
    (name : string) :
  getSelectionName this st = Ok (name, st') ->
  getSelectionName this st' = Ok (name, st').
Proof.
  intros Hcall.
  pose proof (getSelectionName_pointwise _ _ _ _ this Hcall) as Hthis'.
  pose proof Hcall as (r & c & co & Hthis & Hsel & Hc & Hco & -> & ->)%getSelectionName_Ok_inv.
  rewrite Hthis in Hthis'. destruct Hthis' as (o' & Ho' & Hsame).
  apply same_but_id_ribbon in Hsame as (r' & -> & Hsel' & _ & Hch').
  set (co' := with_base co
                (set_m_properties (base co)
                   (StdMap.subscript (m_properties (base co)) PROP_ID).2))
    in *.
  assert (m_properties (base co') !! PROP_ID
          = Some (StdMap.subscript (m_properties (base co)) PROP_ID).1) as Hid.
  { unfold co'. rewrite base_with_base. simpl.
    rewrite subscript_lookup. by case_decide. }
  rewrite (getSelectionName_in_range _ this r' c co' Ho').
  - rewrite (subscript_present _ _ _ Hid). simpl.
    rewrite set_m_properties_id, with_base_base.
    by rewrite insert_insert_eq.
  - lia.
  - by rewrite Hsel', Hch'.
  - apply lookup_insert_eq.
Qed.

Lemma getSelectionName_twice_witness :
  getSelectionName 1%positive
    (<[3%positive := sample_button (Some EmptyString) false]> sample_store)
  = Ok (EmptyString,
        <[3%positive := sample_button (Some EmptyString) false]> sample_store).
Proof.
  apply (getSelectionName_twice sample_store). reflexivity.
Defined.

(** X5: a call of [getSelectionName] that returns creates and destroys no
    object and changes at most one, the selected child (the widget at
    index [m_selection] of the ribbon's [m_children]): every object keeps
    its class and all its members but [m_properties], whose entries other
    than [PROP_ID] are kept too; every address but that of the selected
    child holds what it held; the selected child holds the returned name
    under [PROP_ID] after the call; and nothing at all changes when the
    selected child already held a string under [PROP_ID], which is then
    the name returned. *)
Theorem getSelectionName_touches_one_id (st st' : gmap addr Object)
    (this : addr) (name : string) :
  getSelectionName this st = Ok (name, st') ->
  dom st' = dom st /\
  (forall p o, st !! p = Some o ->
     exists o', st' !! p = Some o' /\ same_but_id o o') /\
  (exists r c co co',
     st !! this = Some (Obj_RibbonWidget r) /\
     0 <= m_selection r < Z.of_nat (length (m_children (Ribbon_base r))) /\
     m_children (Ribbon_base r) !! Z.to_nat (m_selection r) = Some c /\
     st !! c = Some co /\
     st' !! c = Some co' /\
     same_but_id co co' /\
     m_properties (base co') !! PROP_ID = Some name /\
     (forall p, p <> c -> st' !! p = st !! p) /\
     (forall s, m_properties (base co) !! PROP_ID = Some s ->
                name = s /\ st' = st) /\
     (m_properties (base co) !! PROP_ID = None ->
        name = EmptyString /\ st' <> st)).
Proof.
  intros Hcall. split; [|split].
  - apply set_eq. intros p. rewrite !elem_of_dom.
    pose proof (getSelectionName_pointwise _ _ _ _ p Hcall) as Hp.
    destruct (st !! p) as [o|].
    + destruct Hp as (o' & -> & _). by split.
    + rewrite Hp. by split.
  - intros p o Hp.
    pose proof (getSelectionName_pointwise _ _ _ _ p Hcall) as Hp'.
    by rewrite Hp in Hp'.
  - pose proof Hcall
      as (r & c & co & Hthis & Hsel & Hc & Hco & -> & ->)%getSelectionName_Ok_inv.
    exists r, c, co. eexists.
    split; [done|]. split.
    { split; [done|]. apply lookup_lt_Some in Hc. lia. }
    split; [done|]. split; [done|].
    split; [apply lookup_insert_eq|].
    split; [apply same_but_id_subscript|]. split.
    { rewrite base_with_base. simpl. rewrite subscript_lookup. by case_decide. }
    split; [intros p Hne; by apply lookup_insert_ne|]. split.
    + intros s Hs. rewrite (subscript_present _ _ _ Hs). simpl.
      split; [done|].
      rewrite set_m_properties_id, with_base_base. by apply insert_id.
    + intros Hnone. unfold StdMap.subscript. rewrite Hnone. simpl.
      split; [done|]. intros Heq.
      apply (f_equal (fun m => m !! c)) in Heq.
      rewrite lookup_insert_eq, Hco in Heq. injection Heq as Hobj.
      apply (f_equal (fun o => m_properties (base o) !! PROP_ID)) in Hobj.
      rewrite base_with_base in Hobj. simpl in Hobj.
      rewrite lookup_insert_eq, Hnone in Hobj. discriminate.
Qed.

Lemma getSelectionName_touches_one_id_witness :
  dom (<[3%positive := sample_button (Some EmptyString) false]> sample_store)
    = dom sample_store /\
  (exists o', (<[3%positive := sample_button (Some EmptyString) false]>
                 sample_store) !! 3%positive = Some o' /\
              same_but_id (sample_button None false) o') /\
  exists c, m_children (Ribbon_base sample_ribbon)
              !! Z.to_nat (m_selection sample_ribbon) = Some c /\
            forall p, p <> c ->
              (<[3%positive := sample_button (Some EmptyString) false]>
                 sample_store) !! p = sample_store !! p.
Proof.
  destruct (getSelectionName_touches_one_id sample_store
              (<[3%positive := sample_button (Some EmptyString) false]>
                 sample_store) 1%positive EmptyString eq_refl)
    as (Hdom & Hobj & r & c & co & co' & Hthis & _ & Hc & _ & _ & _ & _
        & Hframe & _).
  split; [exact Hdom|]. split.
  - exact (Hobj 3%positive (sample_button None false) eq_refl).
  - exists c. split; [|exact Hframe].
    assert (Some (Obj_RibbonWidget r) = Some (Obj_RibbonWidget sample_ribbon))
      as Hsame by (by rewrite <- Hthis).
    injection Hsame as ->. exact Hc.
Defined.

(** The outcome of an accessor, moved to another store. *)
Lemma isSelected_same_but_id (st st' : gmap addr Object) p :
  match st !! p with
  | Some o => exists o', st' !! p = Some o' /\ same_but_id o o'
  | None => st' !! p = None
  end ->
  isSelected p st' =
    match isSelected p st with
    | Ok (b, _) => Ok (b, st')
    | Crash f => Crash f
    end.
Proof.
  unfold isSelected, bind, deref, ret.
  destruct (st !! p) as [o|].
  - intros (o' & -> & Hsame). by rewrite (same_but_id_selected _ _ Hsame).
  - by intros ->.
Qed.

Lemma ribbon_accessor_same_but_id {A} (f : RibbonWidget -> A)
    (st st' : gmap addr Object) p :
  (forall r r', m_selection r' = m_selection r ->
                m_ribbon_type r' = m_ribbon_type r -> f r' = f r) ->
  match st !! p with
  | Some o => exists o', st' !! p = Some o' /\ same_but_id o o'
  | None => st' !! p = None
  end ->
  (do r <- deref_ribbon p; ret (f r)) st' =
    match (do r <- deref_ribbon p; ret (f r)) st with
    | Ok (a, _) => Ok (a, st')
    | Crash e => Crash e
    end.
Proof.
  intros Hf. unfold deref_ribbon, bind, deref, ret, fault.
  destruct (st !! p) as [o|].
  - intros (o' & -> & Hsame).
    destruct o as [| | | | | | |r|];
      try (destruct Hsame as (Hclass & _);
           by destruct o' as [| | | | | | |r'|]).
    apply same_but_id_ribbon in Hsame as (r' & -> & Hsel & Hty & _).
    by rewrite (Hf r r' Hsel Hty).
  - by intros ->.
Qed.

(** X6: the const accessors do not see a call of [getSelectionName]: on
    every address, [isSelected], [getSelection] and [getRibbonType] have
    after the call the outcome they had before it. *)
Theorem accessors_blind_to_getSelectionName (st st' : gmap addr Object)
    (this p : addr) (name : string) :
  getSelectionName this st = Ok (name, st') ->
  isSelected p st' =
    match isSelected p st with
    | Ok (b, _) => Ok (b, st')
    | Crash f => Crash f
    end /\
  getSelection p st' =
    match getSelection p st with
    | Ok (i, _) => Ok (i, st')
    | Crash f => Crash f
    end /\
  getRibbonType p st' =
    match getRibbonType p st with
    | Ok (t, _) => Ok (t, st')
    | Crash f => Crash f
    end.
Proof.
  intros Hcall.
  pose proof (getSelectionName_pointwise _ _ _ _ p Hcall) as Hp.
  split; [by apply isSelected_same_but_id|]. split.
  - apply (ribbon_accessor_same_but_id m_selection); [by intros|done].
  - apply (ribbon_accessor_same_but_id m_ribbon_type); [by intros|done].
Qed.

Lemma accessors_blind_to_getSelectionName_witness :
  isSelected 3%positive
    (<[3%positive := sample_button (Some EmptyString) false]> sample_store)
  = Ok (false,
        <[3%positive := sample_button (Some EmptyString) false]> sample_store) /\
  getSelection 1%positive
    (<[3%positive := sample_button (Some EmptyString) false]> sample_store)
  = Ok (1, <[3%positive := sample_button (Some EmptyString) false]> sample_store).
Proof.
  destruct (accessors_blind_to_getSelectionName sample_store
              (<[3%positive := sample_button (Some EmptyString) false]>
                 sample_store) 1%positive 3%positive EmptyString eq_refl)
    as (Hsel & _ & _).
  destruct (accessors_blind_to_getSelectionName sample_store
              (<[3%positive := sample_button (Some EmptyString) false]>
                 sample_store) 1%positive 1%positive EmptyString eq_refl)
    as (_ & Hget & _).
  split; [exact Hsel | exact Hget].
Defined.

(** X7: a ribbon without children has no selection name: whatever
    [m_selection] holds, the child indexing of [getSelectionName] is out
    of bounds. *)
Theorem getSelectionName_no_children (st : gmap addr Object) (this : addr)
    (r : RibbonWidget) :
  st !! this = Some (Obj_RibbonWidget r) ->
  m_children (Ribbon_base r) = [] ->
  getSelectionName this st = Crash OutOfBounds.
Proof.
  intros Hthis Hnil. apply (getSelectionName_out_of_range _ _ r Hthis).
  rewrite Hnil. simpl. lia.
Qed.

Lemma getSelectionName_no_children_witness :
  getSelectionName 9%positive
    (<[9%positive := Obj_RibbonWidget
                       (mkRibbonWidget (base sample_div_button) 0 RIBBON_TABS)]>
       sample_store)
  = Crash OutOfBounds.
Proof.
  apply (getSelectionName_no_children _ 9%positive
           (mkRibbonWidget (base sample_div_button) 0 RIBBON_TABS));
    reflexivity.
Defined.

(** ** Which classes override what *)

(** X8: the override table of the header.  Every subclass overrides [add]
    and [Widget] overrides nothing; [leftPressed], [rightPressed] and
    [transmitEvent] are overridden together, by exactly the spinner, the
    ribbon and the ribbon grid; [mouseHovered] and [focused] are
    overridden together, by exactly the ribbon and the ribbon grid, so a
    class that watches hovers also intercepts the events of its
    children. *)
Theorem override_table (c : WidgetClass) :
  (overrides c V_add = true <-> c <> Class_Widget) /\
  (forall f, overrides Class_Widget f = false) /\
  overrides c V_leftPressed = overrides c V_rightPressed /\
  overrides c V_rightPressed = overrides c V_transmitEvent /\
  (overrides c V_transmitEvent = true <->
     c ∈ [Class_SpinnerWidget; Class_RibbonWidget; Class_RibbonGridWidget]) /\
  overrides c V_mouseHovered = overrides c V_focused /\
  (overrides c V_mouseHovered = true <->
     c ∈ [Class_RibbonWidget; Class_RibbonGridWidget]) /\
  (overrides c V_mouseHovered = true -> overrides c V_transmitEvent = true).
Proof.
  split; [|split; [|split; [|split; [|split; [|split; [|split]]]]]].
  - by destruct c.
  - by intros [].
  - by destruct c.
  - by destruct c.
  - destruct c; simpl; (split; [intros ?; try discriminate; in_list|]);
      try done; not_in_list.
  - by destruct c.
  - destruct c; simpl; (split; [intros ?; try discriminate; in_list|]);
      try done; not_in_list.
  - by destruct c.
Qed.

Lemma override_table_witness :
  overrides Class_RibbonGridWidget V_transmitEvent = true /\
  overrides Class_SpinnerWidget V_add = true.
Proof.
  split.
  - destruct (override_table Class_RibbonGridWidget)
      as (_ & _ & _ & _ & _ & _ & _ & Hhover).
    apply Hhover. reflexivity.
  - destruct (override_table Class_SpinnerWidget) as (Hadd & _).
    apply Hadd. discriminate.
Defined.

(** X9: [add] and [focused] on a widget whose class does not override
    them run the empty inline body of [Widget] and change nothing.  That
    is [focused] on every class but the ribbon and the ribbon grid, and
    [add] on a plain [Widget] only; on every other class the call is the
    overriding body of that class. *)
Theorem void_handlers_default (V : VoidBodies) (st : gmap addr Object)
    (this : addr) (o : Object) :
  st !! this = Some o ->
  (class_of o ∉ [Class_RibbonWidget; Class_RibbonGridWidget] ->
     focused V this st = Ok (tt, st)) /\
  (class_of o ∈ [Class_RibbonWidget; Class_RibbonGridWidget] ->
     focused V this st = body_focused V (class_of o) this st) /\
  (class_of o = Class_Widget -> add V this st = Ok (tt, st)) /\
  (class_of o <> Class_Widget ->
     add V this st = body_add V (class_of o) this st).
Proof.
  intros Hthis. pose proof (deref_live _ _ _ Hthis) as Hd.
  unfold focused, add. rewrite !(bind_Ok _ _ _ _ _ Hd).
  split; [|split; [|split]].
  - intros Hnot. destruct (class_of o); try done; exfalso; apply Hnot; in_list.
  - intros Hin. destruct (class_of o); try done; exfalso; revert Hin; not_in_list.
  - by intros ->.
  - intros Hne. by destruct (class_of o).
Qed.

Lemma void_handlers_default_witness :
  focused selecting_bodies 5%positive sample_store = Ok (tt, sample_store) /\
  add selecting_bodies 4%positive sample_store = Ok (tt, sample_store) /\
  add selecting_bodies 3%positive sample_store
    = Ok (tt, <[3%positive := sample_button None true]> sample_store).
Proof.
  destruct (void_handlers_default selecting_bodies sample_store 5%positive
              sample_div_button eq_refl) as (Hfocus & _).
  destruct (void_handlers_default selecting_bodies sample_store 4%positive
              sample_div eq_refl) as (_ & _ & Hadd & _).
  destruct (void_handlers_default selecting_bodies sample_store 3%positive
              (sample_button None false) eq_refl) as (_ & _ & _ & Hbody).
  split; [|split].
  - apply Hfocus. simpl. not_in_list.
  - apply Hadd. reflexivity.
  - rewrite Hbody by discriminate. reflexivity.
Defined.

(** ** Enumerator values *)

(** X10: the enumerators of [Property] have pairwise distinct values that
    fill 100..116, those of [WidgetType] pairwise distinct values that
    fill -1..10 with [WTYPE_NONE] the only negative one, and those of
    [RibbonType] fill 0..2 with [RIBBON_COMBO] at 0; no [Property] value
    is the value of a [WidgetType] or of a [RibbonType]. *)
Theorem enumerator_values :
  (forall p q, Property_value p = Property_value q -> p = q) /\
  (forall z, 100 <= z <= 116 <-> exists p, Property_value p = z) /\
  (forall t u, WidgetType_value t = WidgetType_value u -> t = u) /\
  (forall z, -1 <= z <= 10 <-> exists t, WidgetType_value t = z) /\
  (forall t, WidgetType_value t < 0 <-> t = WTYPE_NONE) /\
  (forall z, 0 <= z <= 2 <-> exists t, RibbonType_value t = z) /\
  (forall p t r, Property_value p <> WidgetType_value t /\
                 Property_value p <> RibbonType_value r).
Proof.
  split; [|split; [|split; [|split; [|split; [|split]]]]].
  - intros p q Heq.
    assert (Property_of_value (Property_value p)
            = Property_of_value (Property_value q)) as Hdec by (by rewrite Heq).
    assert (forall x, Property_of_value (Property_value x) = Some x) as Hrt
      by (by intros []).
    rewrite !Hrt in Hdec. by injection Hdec.
  - intros z. split.
    + intros Hz.
      assert (z = 100 \/ z = 101 \/ z = 102 \/ z = 103 \/ z = 104 \/ z = 105 \/
              z = 106 \/ z = 107 \/ z = 108 \/ z = 109 \/ z = 110 \/ z = 111 \/
              z = 112 \/ z = 113 \/ z = 114 \/ z = 115 \/ z = 116) as Hcases
        by lia.
      destruct (Property_of_value z) as [p|] eqn:Hp.
      * exists p. revert Hp.
        repeat (destruct Hcases as [-> | Hcases]); try subst z;
          simpl; by intros [= <-].
      * exfalso. revert Hp.
        repeat (destruct Hcases as [-> | Hcases]); try subst z; done.
    + intros [p <-]. destruct p; simpl; lia.
  - intros t u. destruct t, u; simpl; intros Heq; try done; lia.
  - intros z. split.
    + intros Hz.
      assert (z = -1 \/ z = 0 \/ z = 1 \/ z = 2 \/ z = 3 \/ z = 4 \/ z = 5 \/
              z = 6 \/ z = 7 \/ z = 8 \/ z = 9 \/ z = 10) as Hcases by lia.
      repeat (destruct Hcases as [-> | Hcases]); try subst z;
        [ by exists WTYPE_NONE | by exists WTYPE_RIBBON | by exists WTYPE_SPINNER
        | by exists WTYPE_BUTTON | by exists WTYPE_GAUGE
        | by exists WTYPE_ICON_BUTTON | by exists WTYPE_CHECKBOX
        | by exists WTYPE_LABEL | by exists WTYPE_MODEL | by exists WTYPE_SPACER
        | by exists WTYPE_DIV | by exists WTYPE_RIBBON_GRID ].
    + intros [t <-]. destruct t; simpl; lia.
  - intros t. destruct t; simpl; split; intros H; try done; lia.
  - intros z. split.
    + intros Hz.
      assert (z = 0 \/ z = 1 \/ z = 2) as [-> | [-> | ->]] by lia;
        [ by exists RIBBON_COMBO | by exists RIBBON_TOOLBAR
        | by exists RIBBON_TABS ].
    + intros [t <-]. destruct t; simpl; lia.
  - intros p t r. split.
    + destruct p, t; simpl; lia.
    + destruct p, r; simpl; lia.
Qed.

Lemma enumerator_values_witness :
  (exists p, Property_value p = 112) /\
  (forall p, Property_value p = Property_value PROP_ID -> p = PROP_ID) /\
  WidgetType_value WTYPE_NONE < 0.
Proof.
  destruct enumerator_values as (Hinj & Hfill & _ & _ & Hneg & _).
  split; [|split].
  - apply Hfill. lia.
  - intros p. apply Hinj.
  - apply Hneg. reflexivity.
Defined.
